(** * semantic-ui-calendar-react: the value lifecycle of DateTimeInput and MonthInput

    A shallow embedding of [src/inputs/DateTimeInput.tsx] and
    [src/inputs/MonthInput.tsx].  A React component is modelled by the data
    it owns ([this.state]), the queue of callbacks it handed to [tick] and
    the log of calls it made to its host; every method is a transformer of
    that triple, with [this.props] passed explicitly. *)

From Stdlib Require Import ZArith.
From stdpp Require Import base option list strings gmap pretty.

Local Open Scope string_scope.
Local Open Scope list_scope.

(** ** Values shared by both inputs *)

(** [type CalendarMode = 'year' | 'month' | 'day' | 'hour' | 'minute'] *)
Inductive CalendarMode : Type := Year | Month | Day | Hour | Minute.

#[global] Instance CalendarMode_eq_dec : EqDecision CalendarMode.
Proof. solve_decision. Defined.

(** [startMode?: 'year' | 'month' | 'day'], a sub-union of [CalendarMode]. *)
Inductive StartMode : Type := StartYear | StartMonth | StartDay.

Definition mode_of_start (m : StartMode) : CalendarMode :=
  match m with
  | StartYear => Year
  | StartMonth => Month
  | StartDay => Day
  end.

(** Modelled from the spec: [TimeRelatedProps] is declared in [BaseInput],
    which is not among the sources; the spec gives the time-representation
    flag as ['12' | '24']. *)
Inductive TimeFormat : Type := TF12 | TF24.

(** The value object a picker hands to [onChange], and the object literal
    given to [moment({...})]: every field is a number or [undefined]. *)
Record DateParts : Type := mkParts {
  v_year : option Z;
  v_month : option Z;
  v_date : option Z;
  v_hour : option Z;
  v_minute : option Z;
}.

(** What the two files import and do not define: React's event objects, the
    values of the props they only pass through, the moment library, and the
    [TIME_FORMAT] table and [parseValue] of [./parse]. *)
Class Externals : Type := {
  Event : Type;
  PropValue : Type;
  Moment : Type;
  (** [moment({ year, month, date, hour, minute })] and [moment(value)] *)
  moment_of_parts : DateParts -> Moment;
  (** [moment(value, format)] *)
  moment_parse : string -> string -> Moment;
  (** [m.locale(localization)] *)
  moment_locale : Moment -> string -> Moment;
  (** [m.isValid()] *)
  isValid : Moment -> bool;
  (** [m.format(format)] *)
  moment_format : Moment -> string -> string;
  (** [m.year()], [m.month()], [m.date()], [m.hour()], [m.minute()] *)
  m_year : Moment -> Z;
  m_month : Moment -> Z;
  m_date : Moment -> Z;
  m_hour : Moment -> Z;
  m_minute : Moment -> Z;
  (** [TIME_FORMAT[timeFormat]] *)
  TIME_FORMAT : TimeFormat -> string;
  (** [parseValue(value, format, localization)]: a moment, or [undefined] *)
  parseValue : string -> string -> option string -> option Moment;
}.

(** JavaScript's [a || b] on an optional string: [undefined] and the empty
    string are falsy. *)
Definition js_or (a : option string) (b : string) : string :=
  match a with
  | Some s => if String.eqb s "" then b else s
  | None => b
  end.

(** ** DateTimeInput *)

Module DateTimeInput.

(** [const nextMode = { year: 'month', month: 'day', day: 'hour',
    hour: 'minute', minute: 'year' }], a table indexed by [CalendarMode]. *)
Definition nextMode (key : CalendarMode) : CalendarMode :=
  match key with
  | Year => Month
  | Month => Day
  | Day => Hour
  | Hour => Minute
  | Minute => Year
  end.

Definition getNextMode (currentMode : CalendarMode) : CalendarMode :=
  nextMode currentMode.

(** [const prevMode = { minute: 'hour', hour: 'day', day: 'month',
    month: 'year', year: 'minute' }] *)
Definition prevMode (key : CalendarMode) : CalendarMode :=
  match key with
  | Minute => Hour
  | Hour => Day
  | Day => Month
  | Month => Year
  | Year => Minute
  end.

Definition getPrevMode (currentMode : CalendarMode) : CalendarMode :=
  prevMode currentMode.

Definition is_minute (m : CalendarMode) : bool :=
  match m with
  | Minute => true
  | _ => false
  end.

(** [interface DateTimeInputState extends BaseInputState] *)
Record DateTimeInputState : Type := mkState {
  mode : CalendarMode;
  year : option Z;
  month : option Z;
  date : option Z;
  hour : option Z;
  minute : option Z;
  popupIsClosed : bool;
}.

Definition set_mode (m : CalendarMode) (s : DateTimeInputState) : DateTimeInputState :=
  mkState m (year s) (month s) (date s) (hour s) (minute s) (popupIsClosed s).

Definition set_fields (y mo d h mi : option Z) (s : DateTimeInputState)
  : DateTimeInputState :=
  mkState (mode s) y mo d h mi (popupIsClosed s).

Definition set_popupIsClosed (b : bool) (s : DateTimeInputState) : DateTimeInputState :=
  mkState (mode s) (year s) (month s) (date s) (hour s) (minute s) b.

(** The five stored date fields, read together. *)
Definition stored (s : DateTimeInputState) : DateParts :=
  mkParts (year s) (month s) (date s) (hour s) (minute s).

(** The deferred callbacks of this component: what it passes to [tick]. *)
Inductive Task `{Externals} : Type :=
  | SwitchToNextModeUndelayed
  | SwitchToPrevModeUndelayed
  | HandleSelectUndelayed (e : Event) (value : DateParts).

Section Component.
Context `{Externals}.

(** [interface DateTimeInputProps].  The props whose value the methods
    below read are fields; [rest] holds every other prop ([initialDate],
    [disable], [minDate], [maxDate], [marked], ... and whatever else the
    caller passes), by name.  [defaultProps] supplies [dateFormat],
    [timeFormat], [startMode], [divider] and [preserveViewMode] when the
    caller does not.  The [onChange] prop is not a field: calling it is an
    [Effect]. *)
Record DateTimeInputProps : Type := mkProps {
  value : string;
  dateFormat : string;
  timeFormat : TimeFormat;
  divider : string;
  dateTimeFormat : option string;
  startMode : StartMode;
  preserveViewMode : bool;
  closable : bool;
  localization : option string;
  rest : gmap string PropValue;
}.

(** [{ ...this.props, value: v }] *)
Definition with_value (p : DateTimeInputProps) (v : string) : DateTimeInputProps :=
  mkProps v (dateFormat p) (timeFormat p) (divider p) (dateTimeFormat p)
    (startMode p) (preserveViewMode p) (closable p) (localization p) (rest p).

(** Two props objects that agree on every field other than [value]. *)
Definition same_config (p d : DateTimeInputProps) : Prop :=
  dateFormat d = dateFormat p /\ timeFormat d = timeFormat p
  /\ divider d = divider p /\ dateTimeFormat d = dateTimeFormat p
  /\ startMode d = startMode p /\ preserveViewMode d = preserveViewMode p
  /\ closable d = closable p /\ localization d = localization p
  /\ rest d = rest p.

(** Calls the component makes outside this file: the caller's [onChange]
    (through [invoke(this.props, 'onChange', e, data)]) and the two
    [BaseInput] methods it uses. *)
Inductive Effect : Type :=
  | OnChange (e : Event) (data : DateTimeInputProps)
  | OnModeSwitch
  | ClosePopup.

(** The [onChange] calls in a log, oldest first. *)
Definition onChange_call (ef : Effect) : option (Event * DateTimeInputProps) :=
  match ef with
  | OnChange e data => Some (e, data)
  | _ => None
  end.

Definition onChange_calls (l : list Effect) : list (Event * DateTimeInputProps) :=
  omap onChange_call l.

Record Component : Type := mkComponent {
  state : DateTimeInputState;
  pending : list Task;
  log : list Effect;
}.

Definition Action : Type := Component -> Component.

Definition skip : Action := fun c => c.

Definition seq (a b : Action) : Action := fun c => b (a c).

Definition when (b : bool) (a : Action) : Action := if b then a else skip.

Declare Scope action_scope.
Delimit Scope action_scope with action.
Bind Scope action_scope with Action.
Notation "a ;; b" := (seq a b)
  (at level 100, b at level 200, right associativity) : action_scope.
Local Open Scope action_scope.

(** [this.state] read at the point of the call. *)
Definition withState (k : DateTimeInputState -> Action) : Action :=
  fun c => k (state c) c.

Definition setState (f : DateTimeInputState -> DateTimeInputState) : Action :=
  fun c => mkComponent (f (state c)) (pending c) (log c).

Definition emit (ef : Effect) : Action :=
  fun c => mkComponent (state c) (pending c) (log c ++ [ef]).

(** Modelled from the spec: [tick] of [../lib] is not among the sources.
    The spec makes it a deferred task: the callback joins a first-in
    first-out queue that runs after the current handler has returned. *)
Definition tick (t : Task) : Action :=
  fun c => mkComponent (state c) (pending c ++ [t]) (log c).

(** Modelled from the spec: [closePopup] belongs to [BaseInput], which is not
    among the sources.  The spec says the popup is closed; the state field
    that records it, [popupIsClosed], is the one the constructor sets.  The
    call itself is logged. *)
Definition closePopup : Action :=
  emit ClosePopup ;; setState (set_popupIsClosed true).

(** [onModeSwitch] also belongs to [BaseInput]; the component only passes it
    to [setState] as the after-update callback, so the call is logged. *)
Definition onModeSwitch : Action :=
  emit OnModeSwitch.

Section Methods.
Variable props : DateTimeInputProps.

(** [return dateTimeFormat || `${dateFormat}${divider}${TIME_FORMAT[timeFormat]}`] *)
Definition getDateTimeFormat : string :=
  js_or (dateTimeFormat props)
    (dateFormat props +:+ divider props +:+ TIME_FORMAT (timeFormat props)).

(** [constructor(props)] *)
Definition constructor : DateTimeInputState :=
  let parsedValue :=
    parseValue (value props) getDateTimeFormat (localization props) in
  mkState (mode_of_start (startMode props))
    (m_year <$> parsedValue) (m_month <$> parsedValue) (m_date <$> parsedValue)
    (m_hour <$> parsedValue) (m_minute <$> parsedValue) true.

(** [componentDidUpdate(prevProps)] *)
Definition componentDidUpdate (prevProps : DateTimeInputProps) : Action :=
  when (negb (String.eqb (value prevProps) (value props)))
    (match parseValue (value props) getDateTimeFormat (localization props) with
     | Some parsed =>
         setState (set_fields (Some (m_year parsed)) (Some (m_month parsed))
                     (Some (m_date parsed)) (Some (m_hour parsed))
                     (Some (m_minute parsed)))
     | None => skip
     end).

(** [this.setState(({ mode }) => ({ mode: getNextMode(mode) }), this.onModeSwitch)] *)
Definition switchToNextModeUndelayed : Action :=
  setState (fun s => set_mode (getNextMode (mode s)) s) ;; onModeSwitch.

Definition switchToNextMode : Action :=
  tick SwitchToNextModeUndelayed.

Definition switchToPrevModeUndelayed : Action :=
  setState (fun s => set_mode (getPrevMode (mode s)) s) ;; onModeSwitch.

Definition switchToPrevMode : Action :=
  tick SwitchToPrevModeUndelayed.

Definition handleSelect (e : Event) (v : DateParts) : Action :=
  tick (HandleSelectUndelayed e v).

Definition onFocus : Action :=
  when (negb (preserveViewMode props))
    (setState (set_mode (mode_of_start (startMode props)))).

(** [const outValue = moment(value).format(this.getDateTimeFormat())] *)
Definition outValue (v : DateParts) : string :=
  moment_format (moment_of_parts v) getDateTimeFormat.

(** The three steps of [handleSelectUndelayed]: the guarded [closePopup], the
    updater given to [setState] (which notifies the caller when the previous
    state is in minute mode), and the after-update callback. *)
Definition handleSelectUndelayed (e : Event) (v : DateParts) : Action :=
  withState (fun s => when (closable props && is_minute (mode s)) closePopup) ;;
  withState (fun prevState =>
    when (is_minute (mode prevState))
      (emit (OnChange e (with_value props (outValue v)))) ;;
    setState (set_fields (v_year v) (v_month v) (v_date v) (v_hour v) (v_minute v))) ;;
  withState (fun s => when (negb (is_minute (mode s))) switchToNextMode).

(** [onInputValueChange(e, { value })] *)
Definition onInputValueChange (e : Event) (v : string) : Action :=
  let parsedValue := moment_parse v getDateTimeFormat in
  when (isValid parsedValue)
    (setState (set_fields (Some (m_year parsedValue)) (Some (m_month parsedValue))
                 (Some (m_date parsedValue)) (Some (m_hour parsedValue))
                 (Some (m_minute parsedValue)))) ;;
  emit (OnChange e (with_value props v)).

(** Running what [tick] deferred: one tick runs the oldest pending callback
    to completion. *)
Definition run_task (t : Task) : Action :=
  match t with
  | SwitchToNextModeUndelayed => switchToNextModeUndelayed
  | SwitchToPrevModeUndelayed => switchToPrevModeUndelayed
  | HandleSelectUndelayed e v => handleSelectUndelayed e v
  end.

Definition run_tick : Action :=
  fun c =>
    match pending c with
    | [] => c
    | t :: q => run_task t (mkComponent (state c) q (log c))
    end.

Fixpoint run_ticks (n : nat) : Action :=
  match n with
  | O => skip
  | S n' => run_tick ;; run_ticks n'
  end.

(** A selection confirmed in the picker ([onChange={this.handleSelect}]),
    followed by the two ticks it can give rise to: the deferred handler and
    the mode switch that handler defers in turn. *)
Definition confirm (e : Event) (v : DateParts) : Action :=
  handleSelect e v ;; run_ticks 2.

(** A click on the picker header ([onHeaderClick={this.switchToPrevMode}]). *)
Definition headerClick : Action :=
  switchToPrevMode ;; run_ticks 1.

(** [parseInternalValue()]: a moment built from the five state fields, or
    [undefined] when [isNil] holds of all of them. *)
Definition isNil (x : option Z) : bool :=
  match x with
  | None => true
  | Some _ => false
  end.

Definition parseInternalValue (s : DateTimeInputState) : option Moment :=
  if negb (isNil (year s)) || negb (isNil (month s)) || negb (isNil (date s))
     || negb (isNil (hour s)) || negb (isNil (minute s))
  then Some (moment_of_parts (mkParts (year s) (month s) (date s) (hour s) (minute s)))
  else None.

(** The names [getUnusedProps] takes out of [this.props], in the order of
    its destructuring pattern. *)
Definition usedProps : list string :=
  ["value"; "dateTimeFormat"; "dateFormat"; "timeFormat"; "initialDate";
   "disable"; "maxDate"; "minDate"; "preserveViewMode"; "startMode";
   "divider"; "closable"; "markColor"; "marked"; "localization"; "onChange"].

(** [getUnusedProps()]: the [...rest] of that pattern.  The props that are
    fields of [DateTimeInputProps] are all among the names taken out, so
    what is left comes from [rest props]. *)
Definition getUnusedProps : gmap string PropValue :=
  foldr delete (rest props) usedProps.


(** A picker value with all five fields set, as the pickers send it. *)
Definition complete (v : DateParts) : bool :=
  negb (isNil (v_year v)) && negb (isNil (v_month v)) && negb (isNil (v_date v))
  && negb (isNil (v_hour v)) && negb (isNil (v_minute v)).

(** No field set at all. *)
Definition blank (v : DateParts) : bool :=
  isNil (v_year v) && isNil (v_month v) && isNil (v_date v)
  && isNil (v_hour v) && isNil (v_minute v).


(** Ticks a pending callback can take up: a deferred selection may defer a
    mode switch in turn, a mode switch defers nothing. *)
Definition ticks_needed (t : Task) : nat :=
  match t with
  | HandleSelectUndelayed _ _ => 2
  | _ => 1
  end.

Definition ticks_to_drain (q : list Task) : nat :=
  sum_list_with ticks_needed q.

End Methods.



End Component.

End DateTimeInput.

(** ** MonthInput *)

Module MonthInput.

Section Component.
Context `{Externals}.

(** [type MonthInputProps]: the props [handleSelect] reads, and [rest] for
    every other prop. *)
Record MonthInputProps : Type := mkProps {
  value : string;
  dateFormat : string;
  closable : bool;
  localization : option string;
  rest : gmap string PropValue;
}.

(** [{ ...this.props, value: v }] *)
Definition with_value (p : MonthInputProps) (v : string) : MonthInputProps :=
  mkProps v (dateFormat p) (closable p) (localization p) (rest p).

Inductive Effect : Type :=
  | OnChange (e : Event) (data : MonthInputProps)
  | ClosePopup.

(** The [onChange] calls in a log, oldest first. *)
Definition onChange_call (ef : Effect) : option (Event * MonthInputProps) :=
  match ef with
  | OnChange e data => Some (e, data)
  | ClosePopup => None
  end.

Definition onChange_calls (l : list Effect) : list (Event * MonthInputProps) :=
  omap onChange_call l.

(** [BaseInputState] is all the state this component has. *)
Record Component : Type := mkComponent {
  popupIsClosed : bool;
  log : list Effect;
}.

Definition Action : Type := Component -> Component.

Definition seq (a b : Action) : Action := fun c => b (a c).

Definition when (b : bool) (a : Action) : Action := if b then a else (fun c => c).

Definition emit (ef : Effect) : Action :=
  fun c => mkComponent (popupIsClosed c) (log c ++ [ef]).

(** Modelled from the spec: [closePopup] of [BaseInput], as for
    [DateTimeInput]. *)
Definition closePopup : Action :=
  seq (emit ClosePopup) (fun c => mkComponent true (log c)).

(** Two props objects that agree on every field other than [value]. *)
Definition same_config (p d : MonthInputProps) : Prop :=
  dateFormat d = dateFormat p /\ closable d = closable p
  /\ localization d = localization p /\ rest d = rest p.

Section Methods.
Variable props : MonthInputProps.

(** [const date = localization
      ? moment({ month: value.month }).locale(localization)
      : moment({ month: value.month })]; an absent or empty [localization]
    is falsy. *)
Definition selected_date (v : DateParts) : Moment :=
  let only_month := mkParts None (v_month v) None None None in
  match localization props with
  | Some l => if String.eqb l "" then moment_of_parts only_month
              else moment_locale (moment_of_parts only_month) l
  | None => moment_of_parts only_month
  end.

(** [let output = ''; if (date.isValid()) { output = date.format(dateFormat); }] *)
Definition output (v : DateParts) : string :=
  if isValid (selected_date v) then moment_format (selected_date v) (dateFormat props)
  else "".

(** [handleSelect(e, { value })] *)
Definition handleSelect (e : Event) (v : DateParts) : Action :=
  seq (emit (OnChange e (with_value props (output v))))
      (when (closable props) closePopup).

(** The names [getUnusedProps] takes out of [this.props]; [onChange] is not
    among them. *)
Definition usedProps : list string :=
  ["value"; "dateFormat"; "initialDate"; "disable"; "maxDate"; "minDate";
   "closable"; "localization"].

(** [getUnusedProps()] *)
Definition getUnusedProps : gmap string PropValue :=
  foldr delete (rest props) usedProps.

End Methods.

End Component.

End MonthInput.

(** ** A host to run the components on

    The properties below hold for every instance of [Externals].  To
    evaluate the components on concrete inputs one instance is fixed here:
    events are numbered, a moment is five integers and a validity flag, and
    its only layout is the default one, [DD-MM-YYYY HH:mm]. *)

Module SampleHost.

Record SampleMoment : Type := mkMoment {
  sm_valid : bool;
  sm_year : Z;
  sm_month : Z;
  sm_date : Z;
  sm_hour : Z;
  sm_minute : Z;
}.

Definition invalid : SampleMoment := mkMoment false 0 0 0 0 0.

Definition of_parts (v : DateParts) : SampleMoment :=
  mkMoment true (default 0%Z (v_year v)) (default 0%Z (v_month v))
    (default 1%Z (v_date v)) (default 0%Z (v_hour v)) (default 0%Z (v_minute v)).

Definition pad2 (z : Z) : string :=
  if (z <? 10)%Z then "0" +:+ pretty z else pretty z.

Definition print (m : SampleMoment) (format : string) : string :=
  if sm_valid m then
    pad2 (sm_date m) +:+ "-" +:+ pad2 (sm_month m + 1) +:+ "-" +:+ pretty (sm_year m)
      +:+ " " +:+ pad2 (sm_hour m) +:+ ":" +:+ pad2 (sm_minute m)
  else "Invalid date".

(** The one text this host reads back is the spec's first scenario. *)
Definition read (text format : string) : SampleMoment :=
  if String.eqb text "05-03-2024 14:30" then mkMoment true 2024 2 5 14 30
  else invalid.

Definition host : Externals := {|
  Event := nat;
  PropValue := string;
  Moment := SampleMoment;
  moment_of_parts := of_parts;
  moment_parse := read;
  moment_locale := fun m _ => m;
  isValid := sm_valid;
  moment_format := print;
  m_year := sm_year;
  m_month := sm_month;
  m_date := sm_date;
  m_hour := sm_hour;
  m_minute := sm_minute;
  TIME_FORMAT := fun t => match t with TF12 => "hh:mm A" | TF24 => "HH:mm" end;
  parseValue := fun text format _ =>
    let m := read text format in if sm_valid m then Some m else None;
|}.

#[local] Existing Instance host.

(** [DateTimeInput.defaultProps], with an empty [value]. *)
Definition defaultProps : DateTimeInput.DateTimeInputProps :=
  DateTimeInput.mkProps "" "DD-MM-YYYY" TF24 " " None StartDay true false None ∅.

Definition idle (m : CalendarMode) : DateTimeInput.Component :=
  DateTimeInput.mkComponent
    (DateTimeInput.mkState m None None None None None true) [] [].

Definition event (n : nat) : Event := n.

Definition click : Event := event 7.

Definition picked : DateParts :=
  mkParts (Some 2024%Z) (Some 2%Z) (Some 5%Z) (Some 14%Z) (Some 30%Z).

End SampleHost.

(** * Properties *)

Import DateTimeInput.

Example sample_format_default :
  getDateTimeFormat SampleHost.defaultProps = "DD-MM-YYYY HH:mm".
Proof. reflexivity. Qed.

Example sample_commit_text :
  log (confirm SampleHost.defaultProps SampleHost.click SampleHost.picked (SampleHost.idle Minute))
  = [OnChange SampleHost.click (with_value SampleHost.defaultProps "05-03-2024 14:30")].
Proof. vm_compute. reflexivity. Qed.

(** ** The mode cycle *)

Lemma getPrevMode_getNextMode (m : CalendarMode) : getPrevMode (getNextMode m) = m.
Proof. by destruct m. Qed.

Lemma getNextMode_getPrevMode (m : CalendarMode) : getNextMode (getPrevMode m) = m.
Proof. by destruct m. Qed.

Lemma getNextMode_inj : Inj (=) (=) getNextMode.
Proof.
  intros m1 m2 Heq.
  by rewrite <- (getPrevMode_getNextMode m1), Heq, getPrevMode_getNextMode.
Qed.

(** C3: the forward map is the five-cycle year, month, day, hour, minute,
    year; the backward map is its inverse on both sides; five applications
    of either map return to the starting mode, and no smaller positive number
    of forward steps does. *)
Theorem mode_maps_are_inverse_five_cycles :
  (getNextMode Year = Month /\ getNextMode Month = Day /\ getNextMode Day = Hour
   /\ getNextMode Hour = Minute /\ getNextMode Minute = Year)
  /\ (forall m, getPrevMode (getNextMode m) = m)
  /\ (forall m, getNextMode (getPrevMode m) = m)
  /\ (forall m, Nat.iter 5 getNextMode m = m)
  /\ (forall m, Nat.iter 5 getPrevMode m = m)
  /\ (forall m k, (0 < k < 5)%nat -> Nat.iter k getNextMode m <> m).
Proof.
  split; [by repeat split|].
  split; [exact getPrevMode_getNextMode|].
  split; [exact getNextMode_getPrevMode|].
  split; [by intros []|].
  split; [by intros []|].
  intros m k [Hlo Hhi].
  destruct k as [|[|[|[|[|k]]]]]; try lia; by destruct m.
Qed.

(** ** The effective format *)

Section Format.
Context `{Externals}.
Implicit Types p : DateTimeInputProps.

Lemma js_or_truthy (s b : string) : s <> "" -> js_or (Some s) b = s.
Proof.
  intros Hs. unfold js_or.
  destruct (String.eqb_spec s ""); [done|reflexivity].
Qed.

(** C4, amended: a [dateTimeFormat] that is present and not the empty string
    is returned unchanged; an absent or empty one gives
    [dateFormat + divider + TIME_FORMAT[timeFormat]]. *)
Theorem getDateTimeFormat_override_or_composite p :
  (forall f, dateTimeFormat p = Some f -> f <> "" -> getDateTimeFormat p = f)
  /\ (dateTimeFormat p = None \/ dateTimeFormat p = Some "" ->
      getDateTimeFormat p = dateFormat p +:+ divider p +:+ TIME_FORMAT (timeFormat p)).
Proof.
  unfold getDateTimeFormat. split.
  - intros f -> Hf. by apply js_or_truthy.
  - by intros [-> | ->].
Qed.

End Format.

(** C4 as stated fails: an empty [dateTimeFormat] is provided, yet the
    result is the composite and not the empty string. *)
Lemma getDateTimeFormat_empty_override_ignored :
  ~ (forall (H : Externals) (p : DateTimeInputProps) (f : string),
       dateTimeFormat p = Some f -> getDateTimeFormat p = f).
Proof.
  intros Hclaim.
  pose (p := mkProps (H := SampleHost.host) "" "DD-MM-YYYY" TF24 " " (Some "")
               StartDay true false None ∅).
  specialize (Hclaim SampleHost.host p "" eq_refl).
  vm_compute in Hclaim. discriminate Hclaim.
Qed.

Lemma getDateTimeFormat_override_or_composite_witness :
  getDateTimeFormat
    (mkProps (H := SampleHost.host) "" "DD-MM-YYYY" TF24 " " (Some "YYYY/MM/DD HH:mm")
       StartDay true false None ∅) = "YYYY/MM/DD HH:mm"
  /\ getDateTimeFormat
       (mkProps (H := SampleHost.host) "" "DD-MM-YYYY" TF24 " " (Some "")
          StartDay true false None ∅) = "DD-MM-YYYY HH:mm".
Proof.
  split.
  - apply (proj1 (getDateTimeFormat_override_or_composite _)); [reflexivity|discriminate].
  - apply (proj2 (getDateTimeFormat_override_or_composite
                    (mkProps (H := SampleHost.host) "" "DD-MM-YYYY" TF24 " " (Some "")
                       StartDay true false None ∅))).
    right. reflexivity.
Defined.

(** ** Focus and prop updates *)

Section FocusAndUpdate.
Context `{Externals}.
Implicit Types (p : DateTimeInputProps) (c : Component).

(** C7: on focus, a component that does not preserve the view mode has its
    mode set to the configured start mode and nothing else changed; one that
    preserves it is left as it was, mode included. *)
Theorem onFocus_resets_unless_preserved p c :
  (preserveViewMode p = false ->
     onFocus p c
     = mkComponent (set_mode (mode_of_start (startMode p)) (state c)) (pending c) (log c)
     /\ mode (state (onFocus p c)) = mode_of_start (startMode p))
  /\ (preserveViewMode p = true ->
        onFocus p c = c /\ mode (state (onFocus p c)) = mode (state c)).
Proof.
  unfold onFocus, when, setState, skip.
  split; intros ->; simpl; by split.
Qed.

(** C10: when the new [value] prop does not parse under the effective
    format, [componentDidUpdate] changes nothing: the five stored date
    fields, and the rest of the component, are what they were. *)
Theorem componentDidUpdate_keeps_fields_on_parse_failure p (prevProps : DateTimeInputProps) c :
  value prevProps <> value p ->
  parseValue (value p) (getDateTimeFormat p) (localization p) = None ->
  componentDidUpdate p prevProps c = c
  /\ year (state (componentDidUpdate p prevProps c)) = year (state c)
  /\ month (state (componentDidUpdate p prevProps c)) = month (state c)
  /\ date (state (componentDidUpdate p prevProps c)) = date (state c)
  /\ hour (state (componentDidUpdate p prevProps c)) = hour (state c)
  /\ minute (state (componentDidUpdate p prevProps c)) = minute (state c).
Proof.
  intros _ Hparse.
  assert (componentDidUpdate p prevProps c = c) as ->; [|done].
  unfold componentDidUpdate, when. rewrite Hparse.
  by destruct (negb _).
Qed.

(** The other branch, for contrast: a changed value that parses replaces all
    five fields by those of the parsed moment. *)
Lemma componentDidUpdate_takes_parsed_fields p (prevProps : DateTimeInputProps) c parsed :
  value prevProps <> value p ->
  parseValue (value p) (getDateTimeFormat p) (localization p) = Some parsed ->
  state (componentDidUpdate p prevProps c)
  = mkState (mode (state c)) (Some (m_year parsed)) (Some (m_month parsed))
      (Some (m_date parsed)) (Some (m_hour parsed)) (Some (m_minute parsed))
      (popupIsClosed (state c)).
Proof.
  intros Hne Hparse. unfold componentDidUpdate, when. rewrite Hparse.
  destruct (String.eqb_spec (value prevProps) (value p)); [done|reflexivity].
Qed.

(** The text-edit path stores the parsed fields exactly when moment reports
    the parse valid, all five together or none; which texts moment accepts
    is moment's business and is not decided here. *)
Lemma onInputValueChange_state p (e : Event) (text : string) c :
  state (onInputValueChange p e text c)
  = if isValid (moment_parse text (getDateTimeFormat p))
    then set_fields
           (Some (m_year (moment_parse text (getDateTimeFormat p))))
           (Some (m_month (moment_parse text (getDateTimeFormat p))))
           (Some (m_date (moment_parse text (getDateTimeFormat p))))
           (Some (m_hour (moment_parse text (getDateTimeFormat p))))
           (Some (m_minute (moment_parse text (getDateTimeFormat p))))
           (state c)
    else state c.
Proof.
  unfold onInputValueChange, seq, when.
  by destruct (isValid _).
Qed.

End FocusAndUpdate.

Lemma onFocus_resets_unless_preserved_witness :
  mode (state (onFocus
     (mkProps (H := SampleHost.host) "" "DD-MM-YYYY" TF24 " " None StartDay false false None ∅)
     (SampleHost.idle Minute))) = Day
  /\ mode (state (onFocus SampleHost.defaultProps (SampleHost.idle Minute))) = Minute.
Proof.
  split.
  - apply (proj1 (onFocus_resets_unless_preserved
       (mkProps (H := SampleHost.host) "" "DD-MM-YYYY" TF24 " " None StartDay false false None ∅)
       (SampleHost.idle Minute))).
    reflexivity.
  - apply (proj2 (onFocus_resets_unless_preserved SampleHost.defaultProps
                    (SampleHost.idle Minute))).
    reflexivity.
Defined.

Lemma componentDidUpdate_keeps_fields_on_parse_failure_witness :
  componentDidUpdate (with_value SampleHost.defaultProps "5 March")
    (with_value SampleHost.defaultProps "05-03-2024 14:30")
    (mkComponent (constructor (with_value SampleHost.defaultProps "05-03-2024 14:30")) [] [])
  = mkComponent
      (mkState Day (Some 2024%Z) (Some 2%Z) (Some 5%Z) (Some 14%Z) (Some 30%Z) true) [] [].
Proof.
  apply (componentDidUpdate_keeps_fields_on_parse_failure
           (with_value SampleHost.defaultProps "5 March")
           (with_value SampleHost.defaultProps "05-03-2024 14:30")
           (mkComponent
              (constructor (with_value SampleHost.defaultProps "05-03-2024 14:30")) [] [])).
  - discriminate.
  - reflexivity.
Defined.

(** ** Selection, deferral and the mode machine *)

Section Selection.
Context `{Externals}.
Implicit Types (p : DateTimeInputProps) (c : Component) (e : Event) (v : DateParts).

Lemma is_minute_true m : is_minute m = true <-> m = Minute.
Proof. by destruct m. Qed.

Lemma is_minute_false m : is_minute m = false <-> m <> Minute.
Proof. by destruct m. Qed.

Lemma onChange_calls_app (l1 l2 : list Effect) :
  onChange_calls (l1 ++ l2) = onChange_calls l1 ++ onChange_calls l2.
Proof. apply omap_app. Qed.

Lemma run_tick_idle p c : pending c = [] -> run_tick p c = c.
Proof. unfold run_tick. by intros ->. Qed.

Lemma run_ticks_idle p n c : pending c = [] -> run_ticks p n c = c.
Proof.
  intros Hq. induction n as [|n IH]; [done|].
  simpl. unfold seq. by rewrite run_tick_idle.
Qed.

Lemma run_tick_tick p t c :
  pending c = [] -> run_tick p (tick t c) = run_task p t c.
Proof.
  destruct c as [s q l]. simpl. intros ->. reflexivity.
Qed.

(** In minute mode the handler notifies the caller and defers nothing. *)
Lemma handleSelectUndelayed_minute p e v c :
  mode (state c) = Minute ->
  handleSelectUndelayed p e v c
  = mkComponent
      (mkState Minute (v_year v) (v_month v) (v_date v) (v_hour v) (v_minute v)
         (if closable p then true else popupIsClosed (state c)))
      (pending c)
      (log c ++ (if closable p then [ClosePopup] else [])
             ++ [OnChange e (with_value p (outValue p v))]).
Proof.
  destruct c as [[m y mo d h mi pc] q l]. simpl. intros ->.
  unfold handleSelectUndelayed, seq, withState, when.
  destruct (closable p); cbv [andb is_minute mode state negb skip closePopup
    emit setState seq log pending set_popupIsClosed set_fields year month date
    hour minute popupIsClosed]; [|done].
  by rewrite <- app_assoc.
Qed.

(** In any other mode it stores the fields and defers the mode switch. *)
Lemma handleSelectUndelayed_other p e v c :
  mode (state c) <> Minute ->
  handleSelectUndelayed p e v c
  = mkComponent
      (set_fields (v_year v) (v_month v) (v_date v) (v_hour v) (v_minute v) (state c))
      (pending c ++ [SwitchToNextModeUndelayed])
      (log c).
Proof.
  destruct c as [[m y mo d h mi pc] q l]. simpl. intros Hm.
  unfold handleSelectUndelayed, seq, withState, when.
  destruct (closable p), m; done.
Qed.

Lemma onChange_calls_minute_commit p e v (l : list Effect) :
  onChange_calls
    (l ++ (if closable p then [ClosePopup] else [])
       ++ [OnChange e (with_value p (outValue p v))])
  = onChange_calls l ++ [(e, with_value p (outValue p v))].
Proof.
  rewrite !onChange_calls_app. by destruct (closable p).
Qed.

(** One confirmed selection, start to finish, outside minute mode. *)
Lemma confirm_other p e v c :
  mode (state c) <> Minute -> pending c = [] ->
  confirm p e v c
  = mkComponent
      (mkState (getNextMode (mode (state c))) (v_year v) (v_month v) (v_date v)
         (v_hour v) (v_minute v) (popupIsClosed (state c)))
      [] (log c ++ [OnModeSwitch]).
Proof.
  destruct c as [[m y mo d h mi pc] q l]. simpl. intros Hm ->.
  unfold confirm, seq, handleSelect. simpl. unfold seq.
  rewrite run_tick_tick by done. simpl.
  rewrite handleSelectUndelayed_other by done. reflexivity.
Qed.

(** One confirmed selection, start to finish, in minute mode. *)
Lemma confirm_minute p e v c :
  mode (state c) = Minute -> pending c = [] ->
  confirm p e v c
  = mkComponent
      (mkState Minute (v_year v) (v_month v) (v_date v) (v_hour v) (v_minute v)
         (if closable p then true else popupIsClosed (state c)))
      []
      (log c ++ (if closable p then [ClosePopup] else [])
             ++ [OnChange e (with_value p (outValue p v))]).
Proof.
  destruct c as [[m y mo d h mi pc] q l]. simpl. intros -> ->.
  unfold confirm, seq, handleSelect. simpl. unfold seq.
  rewrite run_tick_tick by done. simpl.
  by rewrite handleSelectUndelayed_minute.
Qed.

(** C1: a selection handled by [handleSelectUndelayed] always stores the
    selected fields.  Outside minute mode the handler makes no call and
    defers the mode switch; once that deferred switch has run the mode is the
    next one in the forward cycle, still with no [onChange] call.  In minute
    mode nothing is deferred and the mode stays [minute] however many ticks
    follow; the caller's [onChange] is called once, with the selection
    formatted by the effective format. *)
Theorem handleSelectUndelayed_advances_or_commits p e v c :
  stored (state (handleSelectUndelayed p e v c)) = v
  /\ (mode (state c) <> Minute ->
        log (handleSelectUndelayed p e v c) = log c
        /\ pending (handleSelectUndelayed p e v c)
           = pending c ++ [SwitchToNextModeUndelayed]
        /\ (pending c = [] ->
            forall n,
              let c' := run_ticks p (S n) (handleSelectUndelayed p e v c) in
              mode (state c') = getNextMode (mode (state c))
              /\ stored (state c') = v
              /\ pending c' = []
              /\ onChange_calls (log c') = onChange_calls (log c)))
  /\ (mode (state c) = Minute ->
        mode (state (handleSelectUndelayed p e v c)) = Minute
        /\ pending (handleSelectUndelayed p e v c) = pending c
        /\ onChange_calls (log (handleSelectUndelayed p e v c))
           = onChange_calls (log c)
             ++ [(e, with_value p
                       (moment_format (moment_of_parts v) (getDateTimeFormat p)))]
        /\ (pending c = [] ->
            forall n,
              run_ticks p n (handleSelectUndelayed p e v c)
              = handleSelectUndelayed p e v c)).
Proof.
  split; [|split].
  - destruct (decide (mode (state c) = Minute)) as [Hm|Hm].
    + rewrite handleSelectUndelayed_minute by done. by destruct v.
    + rewrite handleSelectUndelayed_other by done. by destruct v.
  - intros Hm. rewrite handleSelectUndelayed_other by done.
    do 2 (split; [done|]). intros Hq n. simpl. unfold seq. rewrite Hq. simpl.
    rewrite run_ticks_idle by done. simpl.
    repeat split; [by destruct v|].
    rewrite onChange_calls_app. simpl. by rewrite app_nil_r.
  - intros Hm. rewrite handleSelectUndelayed_minute by done. simpl.
    do 2 (split; [done|]).
    split; [apply onChange_calls_minute_commit|].
    intros Hq n. by rewrite run_ticks_idle.
Qed.

(** A callback leaves the queue it finds in place and at most appends to
    it; what it does to the state and the log does not depend on the queue. *)
Lemma run_task_appends p t (s : DateTimeInputState) (l : list Effect) :
  exists s' extra l',
    forall q, run_task p t (mkComponent s q l) = mkComponent s' (q ++ extra) l'.
Proof.
  destruct t as [| |e v]; simpl.
  - exists (set_mode (getNextMode (mode s)) s), [], (l ++ [OnModeSwitch]).
    intros q. by rewrite app_nil_r.
  - exists (set_mode (getPrevMode (mode s)) s), [], (l ++ [OnModeSwitch]).
    intros q. by rewrite app_nil_r.
  - destruct (decide (mode s = Minute)) as [Hm|Hm].
    + eexists _, [], _. intros q.
      rewrite handleSelectUndelayed_minute by done. simpl.
      rewrite app_nil_r. reflexivity.
    + eexists _, _, _. intros q.
      rewrite handleSelectUndelayed_other by done. simpl. reflexivity.
Qed.

(** First in, first out: a callback queued behind [q1] is at the head of the
    queue after [length q1] ticks, and up to then the state and the log are
    what they would have been without it. *)
Lemma run_ticks_reaches_deferred p t (q1 : list Task) :
  forall (q2 : list Task) (s : DateTimeInputState) (l : list Effect),
    exists s' q' l',
      run_ticks p (length q1) (mkComponent s (q1 ++ t :: q2) l)
      = mkComponent s' (t :: q') l'
      /\ run_ticks p (length q1) (mkComponent s (q1 ++ q2) l) = mkComponent s' q' l'.
Proof.
  induction q1 as [|a q1 IH]; intros q2 s l.
  - by exists s, q2, l.
  - destruct (run_task_appends p a s l) as (s1 & extra & l1 & Hrun).
    destruct (IH (q2 ++ extra) s1 l1) as (s' & q' & l' & Hwith & Hwithout).
    exists s', q', l'. simpl. unfold seq, run_tick. simpl.
    rewrite !Hrun, <- !app_assoc. simpl. by split.
Qed.

(** C6: [switchToNextMode], [switchToPrevMode] and [handleSelect] return
    with the state and the log untouched and their callback queued last;
    from an empty queue, exactly one tick later the component is what the
    undelayed method makes of it. *)
Theorem transitions_and_selection_deferred_one_tick p e v c :
  (state (switchToNextMode c) = state c /\ log (switchToNextMode c) = log c
   /\ pending (switchToNextMode c) = pending c ++ [SwitchToNextModeUndelayed]
   /\ (pending c = [] ->
       run_tick p (switchToNextMode c) = switchToNextModeUndelayed c))
  /\ (state (switchToPrevMode c) = state c /\ log (switchToPrevMode c) = log c
      /\ pending (switchToPrevMode c) = pending c ++ [SwitchToPrevModeUndelayed]
      /\ (pending c = [] ->
          run_tick p (switchToPrevMode c) = switchToPrevModeUndelayed c))
  /\ (state (handleSelect e v c) = state c /\ log (handleSelect e v c) = log c
      /\ pending (handleSelect e v c) = pending c ++ [HandleSelectUndelayed e v]
      /\ (pending c = [] ->
          run_tick p (handleSelect e v c) = handleSelectUndelayed p e v c)).
Proof.
  unfold switchToNextMode, switchToPrevMode, handleSelect.
  repeat split; intros Hq; by rewrite run_tick_tick.
Qed.

(** A header click moves one step back in the cycle. *)
Lemma headerClick_retreats p c :
  pending c = [] ->
  mode (state (headerClick p c)) = getPrevMode (mode (state c)).
Proof.
  intros Hq. unfold headerClick, seq, switchToPrevMode. simpl. unfold seq.
  rewrite run_tick_tick by done. reflexivity.
Qed.

(** C2, amended: from mode [day], the first confirmed selection leads to
    [hour] and the second to [minute], neither calling [onChange]; the third,
    made in [minute], calls [onChange] with the formatted selection and
    leaves the mode at [minute], with nothing left pending. *)
Theorem three_confirmations_from_day p e1 v1 e2 v2 e3 v3 c :
  mode (state c) = Day ->
  pending c = [] ->
  let c1 := confirm p e1 v1 c in
  let c2 := confirm p e2 v2 c1 in
  let c3 := confirm p e3 v3 c2 in
  mode (state c1) = Hour
  /\ mode (state c2) = Minute
  /\ onChange_calls (log c2) = onChange_calls (log c)
  /\ mode (state c3) = Minute
  /\ pending c3 = []
  /\ onChange_calls (log c3)
     = onChange_calls (log c)
       ++ [(e3, with_value p (moment_format (moment_of_parts v3) (getDateTimeFormat p)))].
Proof.
  intros Hm Hq. simpl.
  rewrite (confirm_other p e1 v1 c) by (done || by rewrite Hm).
  rewrite Hm. simpl.
  rewrite confirm_other by done. simpl.
  rewrite confirm_minute by done. simpl.
  rewrite <- !app_assoc, !onChange_calls_app. simpl.
  repeat split; [by rewrite app_nil_r|].
  by destruct (closable p).
Qed.

End Selection.

Lemma handleSelectUndelayed_advances_or_commits_witness :
  mode (state (run_ticks SampleHost.defaultProps 1
     (handleSelectUndelayed SampleHost.defaultProps SampleHost.click SampleHost.picked
        (SampleHost.idle Hour)))) = Minute
  /\ onChange_calls (log (run_ticks SampleHost.defaultProps 3
       (handleSelectUndelayed SampleHost.defaultProps SampleHost.click SampleHost.picked
          (SampleHost.idle Minute))))
     = [(SampleHost.click, with_value SampleHost.defaultProps "05-03-2024 14:30")].
Proof.
  pose proof (handleSelectUndelayed_advances_or_commits SampleHost.defaultProps
                SampleHost.click SampleHost.picked (SampleHost.idle Hour))
    as (_ & Hother & _).
  pose proof (handleSelectUndelayed_advances_or_commits SampleHost.defaultProps
                SampleHost.click SampleHost.picked (SampleHost.idle Minute))
    as (_ & _ & Hminute).
  split.
  - apply (proj2 (proj2 (Hother ltac:(discriminate))) eq_refl 0%nat).
  - destruct (Hminute eq_refl) as (_ & _ & Hcalls & Hstable).
    rewrite (Hstable eq_refl 3%nat). exact Hcalls.
Defined.

Lemma transitions_and_selection_deferred_one_tick_witness :
  mode (state (switchToPrevMode (SampleHost.idle Hour))) = Hour
  /\ mode (state (run_tick SampleHost.defaultProps (switchToPrevMode (SampleHost.idle Hour))))
     = Day.
Proof.
  pose proof (transitions_and_selection_deferred_one_tick SampleHost.defaultProps
                SampleHost.click SampleHost.picked (SampleHost.idle Hour))
    as (_ & (Hstate & _ & _ & Hrun) & _).
  split.
  - rewrite Hstate. reflexivity.
  - rewrite (Hrun eq_refl). reflexivity.
Defined.

Lemma three_confirmations_from_day_witness :
  let c3 :=
    confirm SampleHost.defaultProps (SampleHost.event 3) SampleHost.picked
      (confirm SampleHost.defaultProps (SampleHost.event 2) SampleHost.picked
         (confirm SampleHost.defaultProps (SampleHost.event 1) SampleHost.picked
            (SampleHost.idle Day))) in
  mode (state c3) = Minute
  /\ onChange_calls (log c3)
     = [(SampleHost.event 3, with_value SampleHost.defaultProps "05-03-2024 14:30")].
Proof.
  pose proof (three_confirmations_from_day SampleHost.defaultProps
                (SampleHost.event 1) SampleHost.picked
                (SampleHost.event 2) SampleHost.picked
                (SampleHost.event 3) SampleHost.picked
                (SampleHost.idle Day) eq_refl eq_refl)
    as (_ & _ & _ & Hmode & _ & Hcalls).
  split; [exact Hmode | exact Hcalls].
Defined.

(** C2 as stated fails: after the commit in [minute] the mode is still
    [minute], so it is not true that it has moved on to [year]. *)
Lemma minute_commit_does_not_cycle_to_year :
  ~ (forall (H : Externals) (p : DateTimeInputProps) (e1 e2 e3 : Event)
       (v1 v2 v3 : DateParts) (c : Component),
       mode (state c) = Day -> pending c = [] ->
       mode (state (confirm p e3 v3 (confirm p e2 v2 (confirm p e1 v1 c)))) = Year).
Proof.
  intros Hclaim.
  specialize (Hclaim SampleHost.host SampleHost.defaultProps
                (SampleHost.event 1) (SampleHost.event 2) (SampleHost.event 3)
                SampleHost.picked SampleHost.picked SampleHost.picked
                (SampleHost.idle Day) eq_refl eq_refl).
  vm_compute in Hclaim. discriminate Hclaim.
Qed.

(** ** What the caller's [onChange] receives *)

Section Notification.
Context `{Externals}.

Lemma with_value_same_config (p : DateTimeInputProps) (s : string) :
  value (with_value p s) = s /\ same_config p (with_value p s).
Proof. by repeat split. Qed.

Lemma month_with_value_same_config (p : MonthInput.MonthInputProps) (s : string) :
  MonthInput.value (MonthInput.with_value p s) = s
  /\ MonthInput.same_config p (MonthInput.with_value p s).
Proof. by repeat split. Qed.

(** C5: each of the three notifications is one [onChange] call whose data
    has the new text as [value] (the formatted selection at the minute-mode
    commit, the edited text on a text edit, the formatted month or the empty
    string on a month selection) and agrees with the props on every other
    field, the pass-through ones included. *)
Theorem onChange_data_is_props_with_new_value :
  (forall (p : DateTimeInputProps) (e : Event) (v : DateParts) (c : Component),
     exists d,
       onChange_calls (log (handleSelectUndelayed p e v c))
       = onChange_calls (log c) ++ (if is_minute (mode (state c)) then [(e, d)] else [])
       /\ value d = moment_format (moment_of_parts v) (getDateTimeFormat p)
       /\ same_config p d)
  /\ (forall (p : DateTimeInputProps) (e : Event) (text : string) (c : Component),
        exists d,
          onChange_calls (log (onInputValueChange p e text c))
          = onChange_calls (log c) ++ [(e, d)]
          /\ value d = text /\ same_config p d)
  /\ (forall (p : MonthInput.MonthInputProps) (e : Event) (v : DateParts)
        (c : MonthInput.Component),
        exists d,
          MonthInput.onChange_calls (MonthInput.log (MonthInput.handleSelect p e v c))
          = MonthInput.onChange_calls (MonthInput.log c) ++ [(e, d)]
          /\ MonthInput.value d = MonthInput.output p v
          /\ MonthInput.same_config p d).
Proof.
  split; [|split].
  - intros p e v c. exists (with_value p (outValue p v)).
    split; [|apply with_value_same_config].
    destruct (is_minute (mode (state c))) eqn:Hm.
    + apply is_minute_true in Hm. rewrite handleSelectUndelayed_minute by done.
      apply onChange_calls_minute_commit.
    + apply is_minute_false in Hm. rewrite handleSelectUndelayed_other by done.
      simpl. by rewrite app_nil_r.
  - intros p e text c. exists (with_value p text).
    split; [|apply with_value_same_config].
    unfold onInputValueChange, seq, when.
    destruct (isValid _); simpl; by rewrite onChange_calls_app.
  - intros p e v c. exists (MonthInput.with_value p (MonthInput.output p v)).
    split; [|apply month_with_value_same_config].
    unfold MonthInput.handleSelect, MonthInput.seq, MonthInput.when,
      MonthInput.onChange_calls.
    destruct (MonthInput.closable p); simpl; rewrite !omap_app; simpl;
      by rewrite ?app_nil_r.
Qed.

End Notification.

(** ** The internal value *)

Section InternalValue.
Context `{Externals}.
Implicit Types (p : DateTimeInputProps) (c : Component) (s : DateTimeInputState).

Lemma blank_complete_exclusive (v : DateParts) :
  blank v = true -> complete v = true -> False.
Proof. destruct v as [[] [] [] [] []]; discriminate. Qed.

(** X1: [parseInternalValue] returns [undefined] exactly when all five
    stored fields are nil; in every other case it returns the moment built
    from the five fields as they are, unset ones included. *)
Theorem parseInternalValue_defined_iff s :
  (parseInternalValue s = None <-> blank (stored s) = true)
  /\ (blank (stored s) = false ->
      parseInternalValue s = Some (moment_of_parts (stored s))).
Proof.
  destruct s as [m [y|] [mo|] [d|] [h|] [mi|] pc]; by repeat split.
Qed.




End InternalValue.


(** ** Props updates and text edits *)

Section UpdatesAndEdits.
Context `{Externals}.
Implicit Types (p : DateTimeInputProps) (c : Component) (e : Event).

(** X4: [componentDidUpdate] looks at nothing but [value]: when the new
    [value] prop equals the previous one the component is left as it was,
    even if the format props differ and the value would now parse
    differently. *)
Theorem componentDidUpdate_same_value_is_noop p (prevProps : DateTimeInputProps) c :
  value prevProps = value p ->
  componentDidUpdate p prevProps c = c.
Proof.
  intros Heq. unfold componentDidUpdate, when, skip.
  rewrite Heq, String.eqb_refl. reflexivity.
Qed.

(** X5: [componentDidUpdate] writes the five date fields only: the mode, the
    popup flag, the pending callbacks and the log are untouched, no [onChange]
    call is made, and running it a second time with the same props changes
    nothing more. *)
Theorem componentDidUpdate_frame_and_idempotent p (prevProps : DateTimeInputProps) c :
  mode (state (componentDidUpdate p prevProps c)) = mode (state c)
  /\ popupIsClosed (state (componentDidUpdate p prevProps c)) = popupIsClosed (state c)
  /\ pending (componentDidUpdate p prevProps c) = pending c
  /\ log (componentDidUpdate p prevProps c) = log c
  /\ componentDidUpdate p prevProps (componentDidUpdate p prevProps c)
     = componentDidUpdate p prevProps c.
Proof.
  unfold componentDidUpdate, when, skip.
  destruct (negb _); [|done].
  by destruct (parseValue _ _ _).
Qed.

(** X6: a text edit always makes exactly one [onChange] call, carrying the
    text as typed, and never touches the mode, the popup flag or the pending
    callbacks.  When moment reports the text invalid the stored fields stay
    as they are; when valid, all five are replaced by the parsed ones. *)
Theorem onInputValueChange_effect p e (text : string) c :
  mode (state (onInputValueChange p e text c)) = mode (state c)
  /\ popupIsClosed (state (onInputValueChange p e text c)) = popupIsClosed (state c)
  /\ pending (onInputValueChange p e text c) = pending c
  /\ log (onInputValueChange p e text c) = log c ++ [OnChange e (with_value p text)]
  /\ (isValid (moment_parse text (getDateTimeFormat p)) = false ->
      state (onInputValueChange p e text c) = state c)
  /\ (isValid (moment_parse text (getDateTimeFormat p)) = true ->
      stored (state (onInputValueChange p e text c))
      = mkParts (Some (m_year (moment_parse text (getDateTimeFormat p))))
          (Some (m_month (moment_parse text (getDateTimeFormat p))))
          (Some (m_date (moment_parse text (getDateTimeFormat p))))
          (Some (m_hour (moment_parse text (getDateTimeFormat p))))
          (Some (m_minute (moment_parse text (getDateTimeFormat p))))).
Proof.
  unfold onInputValueChange, seq, when, skip.
  by destruct (isValid _).
Qed.

End UpdatesAndEdits.

Lemma componentDidUpdate_same_value_is_noop_witness :
  componentDidUpdate
    (mkProps (H := SampleHost.host) "05-03-2024 14:30" "DD-MM-YYYY" TF24 " " None
       StartDay true false None ∅)
    (mkProps (H := SampleHost.host) "05-03-2024 14:30" "YYYY" TF12 "T" None
       StartDay true false None ∅)
    (SampleHost.idle Day)
  = SampleHost.idle Day.
Proof.
  apply (componentDidUpdate_same_value_is_noop
           (mkProps (H := SampleHost.host) "05-03-2024 14:30" "DD-MM-YYYY" TF24 " " None
              StartDay true false None ∅)
           (mkProps (H := SampleHost.host) "05-03-2024 14:30" "YYYY" TF12 "T" None
              StartDay true false None ∅)
           (SampleHost.idle Day)).
  reflexivity.
Defined.

Lemma onInputValueChange_effect_witness :
  state (onInputValueChange SampleHost.defaultProps SampleHost.click "5 March"
           (SampleHost.idle Hour))
  = state (SampleHost.idle Hour)
  /\ stored (state (onInputValueChange SampleHost.defaultProps SampleHost.click
                      "05-03-2024 14:30" (SampleHost.idle Hour)))
     = SampleHost.picked.
Proof.
  split.
  - apply (proj1 (proj2 (proj2 (proj2 (proj2
      (onInputValueChange_effect SampleHost.defaultProps SampleHost.click "5 March"
         (SampleHost.idle Hour))))))).
    reflexivity.
  - apply (proj2 (proj2 (proj2 (proj2 (proj2
      (onInputValueChange_effect SampleHost.defaultProps SampleHost.click
         "05-03-2024 14:30" (SampleHost.idle Hour))))))).
    reflexivity.
Defined.

(** ** More on selections, header clicks and the queue *)

Section Composition.
Context `{Externals}.
Implicit Types (p : DateTimeInputProps) (c : Component) (e : Event) (v : DateParts).

(** X7: [handleSelectUndelayed] closes the popup only for a closable input
    in minute mode, and then before the caller is notified; in every other
    case the popup flag is what it was and [closePopup] is not called. *)
Theorem handleSelectUndelayed_closes_popup_first p e v c :
  popupIsClosed (state (handleSelectUndelayed p e v c))
  = (closable p && is_minute (mode (state c))) || popupIsClosed (state c)
  /\ log (handleSelectUndelayed p e v c)
     = log c ++ (if is_minute (mode (state c))
                 then (if closable p then [ClosePopup] else [])
                        ++ [OnChange e (with_value p (outValue p v))]
                 else []).
Proof.
  destruct (is_minute (mode (state c))) eqn:Hm.
  - apply is_minute_true in Hm. rewrite handleSelectUndelayed_minute by done.
    simpl. by destruct (closable p).
  - apply is_minute_false in Hm. rewrite handleSelectUndelayed_other by done.
    simpl. rewrite andb_false_r, app_nil_r. done.
Qed.

Lemma headerClick_idle p c :
  pending c = [] ->
  headerClick p c
  = mkComponent (set_mode (getPrevMode (mode (state c))) (state c)) []
      (log c ++ [OnModeSwitch]).
Proof.
  destruct c as [s q l]. simpl. intros ->. reflexivity.
Qed.

(** X8: from an empty queue, a confirmed selection outside minute mode
    followed by a header click is back in the mode it started from, and so is
    a header click followed by a confirmed selection, except from [year]:
    there the header click wraps round to [minute], where the selection is
    committed to the caller and the mode stays [minute]. *)
Theorem header_click_and_selection_compose p e v c :
  pending c = [] ->
  (mode (state c) <> Minute ->
     mode (state (headerClick p (confirm p e v c))) = mode (state c))
  /\ (mode (state c) <> Year ->
        mode (state (confirm p e v (headerClick p c))) = mode (state c)
        /\ onChange_calls (log (confirm p e v (headerClick p c)))
           = onChange_calls (log c))
  /\ (mode (state c) = Year ->
        mode (state (confirm p e v (headerClick p c))) = Minute
        /\ onChange_calls (log (confirm p e v (headerClick p c)))
           = onChange_calls (log c) ++ [(e, with_value p (outValue p v))]).
Proof.
  intros Hq. split; [|split].
  - intros Hm. rewrite confirm_other by done.
    rewrite headerClick_idle by done. simpl. apply getPrevMode_getNextMode.
  - intros Hm. rewrite headerClick_idle by done.
    rewrite confirm_other; [|simpl; by destruct (mode (state c))|done].
    simpl. split; [apply getNextMode_getPrevMode|].
    rewrite !onChange_calls_app. simpl. by rewrite !app_nil_r.
  - intros Hm. rewrite headerClick_idle by done.
    rewrite confirm_minute; [|simpl; by rewrite Hm|done].
    simpl. split; [done|].
    rewrite <- app_assoc. rewrite onChange_calls_app.
    rewrite (onChange_calls_minute_commit p e v [OnModeSwitch]). simpl.
    reflexivity.
Qed.

(** A callback defers at most what its own allowance of ticks leaves. *)
Lemma run_task_appends_bounded p t (s : DateTimeInputState) (l : list Effect) :
  exists s' extra l',
    S (ticks_to_drain extra) <= ticks_needed t
    /\ forall q, run_task p t (mkComponent s q l) = mkComponent s' (q ++ extra) l'.
Proof.
  destruct t as [| |e v]; simpl.
  - exists (set_mode (getNextMode (mode s)) s), [], (l ++ [OnModeSwitch]).
    split; [done|]. intros q. by rewrite app_nil_r.
  - exists (set_mode (getPrevMode (mode s)) s), [], (l ++ [OnModeSwitch]).
    split; [done|]. intros q. by rewrite app_nil_r.
  - destruct (decide (mode s = Minute)) as [Hm|Hm].
    + eexists _, [], _. split; [simpl; lia|]. intros q.
      rewrite handleSelectUndelayed_minute by done. simpl.
      rewrite app_nil_r. reflexivity.
    + eexists _, [SwitchToNextModeUndelayed], _. split; [done|]. intros q.
      rewrite handleSelectUndelayed_other by done. simpl. reflexivity.
Qed.

Lemma ticks_to_drain_app (q1 q2 : list Task) :
  ticks_to_drain (q1 ++ q2) = ticks_to_drain q1 + ticks_to_drain q2.
Proof. apply sum_list_with_app. Qed.

Lemma run_ticks_drains p (n : nat) :
  forall (q : list Task) (s : DateTimeInputState) (l : list Effect),
    ticks_to_drain q <= n ->
    pending (run_ticks p n (mkComponent s q l)) = [].
Proof.
  induction n as [|n IH]; intros q s l Hn.
  - destruct q as [|t q]; [done|].
    unfold ticks_to_drain in Hn. simpl in Hn. destruct t; simpl in Hn; lia.
  - destruct q as [|t q]; [by rewrite run_ticks_idle|].
    simpl. unfold seq, run_tick. simpl.
    destruct (run_task_appends_bounded p t s l) as (s' & extra & l' & Hb & Hrun).
    rewrite Hrun. apply IH.
    rewrite ticks_to_drain_app.
    unfold ticks_to_drain in *. simpl in Hn. lia.
Qed.

(** X9: the queue of deferred callbacks always runs dry: allowing two ticks
    for each pending selection and one for each pending mode switch, nothing
    is left pending, and further ticks change nothing. *)
Theorem deferred_queue_drains p c (n : nat) :
  ticks_to_drain (pending c) <= n ->
  pending (run_ticks p n c) = []
  /\ forall k, run_ticks p k (run_ticks p n c) = run_ticks p n c.
Proof.
  intros Hn.
  assert (pending (run_ticks p n c) = []) as Hdry.
  { destruct c as [s q l]. by apply run_ticks_drains. }
  split; [done|]. intros k. by apply run_ticks_idle.
Qed.

(** X10: two selections handed to [handleSelect] before any tick has run are
    both handled in the mode the first one found, so outside minute mode they
    defer two mode switches: after four ticks the mode has advanced twice,
    the fields are those of the second selection and [onChange] has not been
    called, even when the mode passed through [minute] on the way. *)
Theorem two_selections_before_any_tick p e1 v1 e2 v2 c :
  pending c = [] ->
  mode (state c) <> Minute ->
  let c' := run_ticks p 4 (handleSelect e2 v2 (handleSelect e1 v1 c)) in
  mode (state c') = getNextMode (getNextMode (mode (state c)))
  /\ stored (state c') = v2
  /\ pending c' = []
  /\ onChange_calls (log c') = onChange_calls (log c).
Proof.
  destruct c as [[m y mo d h mi pc] q l]. simpl. intros -> Hm.
  unfold seq, run_tick. simpl.
  rewrite handleSelectUndelayed_other by done. simpl.
  rewrite handleSelectUndelayed_other by done. simpl.
  unfold switchToNextModeUndelayed, seq, skip. simpl.
  rewrite <- app_assoc, onChange_calls_app. simpl.
  rewrite app_nil_r. by destruct v2.
Qed.

(** X11: a callback handed to [tick] behind other pending callbacks waits
    its turn: after as many ticks as there were callbacks before it, the
    state and the log are what they would be had it never been queued, and
    it is now the first of the queue. *)
Theorem deferred_callback_waits_its_turn p t c :
  state (run_ticks p (length (pending c)) (tick t c))
  = state (run_ticks p (length (pending c)) c)
  /\ log (run_ticks p (length (pending c)) (tick t c))
     = log (run_ticks p (length (pending c)) c)
  /\ pending (run_ticks p (length (pending c)) (tick t c))
     = t :: pending (run_ticks p (length (pending c)) c).
Proof.
  destruct c as [s q l]. simpl.
  destruct (run_ticks_reaches_deferred p t q [] s l) as (s' & q' & l' & Hwith & Hwithout).
  rewrite app_nil_r in Hwithout. unfold tick. simpl.
  by rewrite Hwith, Hwithout.
Qed.

End Composition.

Lemma header_click_and_selection_compose_witness :
  mode (state (headerClick SampleHost.defaultProps
     (confirm SampleHost.defaultProps SampleHost.click SampleHost.picked
        (SampleHost.idle Day)))) = Day
  /\ mode (state (confirm SampleHost.defaultProps SampleHost.click SampleHost.picked
       (headerClick SampleHost.defaultProps (SampleHost.idle Year)))) = Minute.
Proof.
  split.
  - apply (proj1 (header_click_and_selection_compose SampleHost.defaultProps
                    SampleHost.click SampleHost.picked (SampleHost.idle Day) eq_refl)).
    discriminate.
  - apply (proj2 (proj2 (header_click_and_selection_compose SampleHost.defaultProps
                    SampleHost.click SampleHost.picked (SampleHost.idle Year) eq_refl))).
    reflexivity.
Defined.

Lemma deferred_queue_drains_witness :
  pending (run_ticks SampleHost.defaultProps 3
     (switchToPrevMode
        (handleSelect SampleHost.click SampleHost.picked (SampleHost.idle Day))))
  = [].
Proof.
  apply (deferred_queue_drains SampleHost.defaultProps
           (switchToPrevMode
              (handleSelect SampleHost.click SampleHost.picked (SampleHost.idle Day)))
           3%nat).
  vm_compute. lia.
Defined.

Lemma two_selections_before_any_tick_witness :
  mode (state (run_ticks SampleHost.defaultProps 4
     (handleSelect (SampleHost.event 2) SampleHost.picked
        (handleSelect (SampleHost.event 1) SampleHost.picked (SampleHost.idle Hour)))))
  = Year
  /\ onChange_calls (log (run_ticks SampleHost.defaultProps 4
       (handleSelect (SampleHost.event 2) SampleHost.picked
          (handleSelect (SampleHost.event 1) SampleHost.picked (SampleHost.idle Hour)))))
     = [].
Proof.
  pose proof (two_selections_before_any_tick SampleHost.defaultProps
                (SampleHost.event 1) SampleHost.picked
                (SampleHost.event 2) SampleHost.picked
                (SampleHost.idle Hour) eq_refl ltac:(discriminate))
    as (Hmode & _ & _ & Hcalls).
  split; [exact Hmode | exact Hcalls].
Defined.

(** ** Props handed on to the views *)

Ltac name_is_listed :=
  repeat first [apply list_elem_of_here | apply list_elem_of_further].

Ltac name_is_not_listed :=
  let Hin := fresh "Hin" in
  intros Hin;
  repeat (apply elem_of_cons in Hin as [Hin|Hin]; [discriminate Hin|]);
  by apply elem_of_nil in Hin.

Section UnusedProps.
Context `{Externals}.

(** X12: [DateTimeInput]'s [getUnusedProps] hands on none of the sixteen
    props the component consumes, [onChange] among them, and hands on every
    other prop with the value the caller gave it. *)
Theorem getUnusedProps_drops_exactly_the_used_props
    (p : DateTimeInputProps) (k : string) :
  (k ∈ usedProps -> getUnusedProps p !! k = None)
  /\ (k ∉ usedProps -> getUnusedProps p !! k = rest p !! k).
Proof.
  unfold getUnusedProps. split; intros Hk.
  - by apply lookup_foldr_delete.
  - by apply lookup_foldr_delete_not_elem_of.
Qed.

(** X13: [MonthInput]'s [getUnusedProps] hands on none of the eight props
    it names and every other prop unchanged; unlike [DateTimeInput]'s it
    does not take out [onChange], which reaches the view when the caller
    passed it. *)
Theorem month_getUnusedProps_keeps_onChange
    (p : MonthInput.MonthInputProps) (k : string) :
  (k ∈ MonthInput.usedProps -> MonthInput.getUnusedProps p !! k = None)
  /\ (k ∉ MonthInput.usedProps ->
      MonthInput.getUnusedProps p !! k = MonthInput.rest p !! k)
  /\ MonthInput.getUnusedProps p !! "onChange" = MonthInput.rest p !! "onChange".
Proof.
  unfold MonthInput.getUnusedProps. split; [|split].
  - intros Hk. by apply lookup_foldr_delete.
  - intros Hk. by apply lookup_foldr_delete_not_elem_of.
  - apply lookup_foldr_delete_not_elem_of.
    unfold MonthInput.usedProps. name_is_not_listed.
Qed.

End UnusedProps.

Lemma getUnusedProps_drops_exactly_the_used_props_witness :
  getUnusedProps
    (mkProps (H := SampleHost.host) "" "DD-MM-YYYY" TF24 " " None StartDay true false None
       (<["onChange" := "handler"]> (<["placeholder" := "Date Time"]> ∅)))
    !! "onChange" = None
  /\ getUnusedProps
       (mkProps (H := SampleHost.host) "" "DD-MM-YYYY" TF24 " " None StartDay true false None
          (<["onChange" := "handler"]> (<["placeholder" := "Date Time"]> ∅)))
     !! "placeholder" = Some "Date Time".
Proof.
  set (p := mkProps (H := SampleHost.host) "" "DD-MM-YYYY" TF24 " " None StartDay
              true false None
              (<["onChange" := "handler"]> (<["placeholder" := "Date Time"]> ∅))).
  split.
  - apply (proj1 (getUnusedProps_drops_exactly_the_used_props p "onChange")).
    unfold usedProps. name_is_listed.
  - transitivity (rest p !! "placeholder"); [|reflexivity].
    apply (proj2 (getUnusedProps_drops_exactly_the_used_props p "placeholder")).
    unfold usedProps. name_is_not_listed.
Defined.

(** ** MonthInput's selection handler *)

Section MonthSelection.
Context `{Externals}.
Implicit Types (p : MonthInput.MonthInputProps) (c : MonthInput.Component)
  (e : Event) (v : DateParts).

(** X14: [MonthInput.handleSelect] reads nothing of the picker's value but
    its month: two values with the same month lead to the same [onChange]
    call and the same component. *)
Theorem month_handleSelect_reads_month_only p e v v' c :
  v_month v = v_month v' ->
  MonthInput.handleSelect p e v c = MonthInput.handleSelect p e v' c.
Proof.
  intros Hm.
  unfold MonthInput.handleSelect, MonthInput.output, MonthInput.selected_date.
  by rewrite Hm.
Qed.

(** X15: [MonthInput.handleSelect] always calls [onChange] once, and first;
    only then, for a closable input, does it close the popup.  The text it
    sends is the month formatted by [dateFormat], or the empty string when
    moment reports the month invalid; an absent or empty [localization]
    means no [locale] call on the moment. *)
Theorem month_handleSelect_effect p e v c :
  MonthInput.log (MonthInput.handleSelect p e v c)
  = MonthInput.log c
    ++ [MonthInput.OnChange e (MonthInput.with_value p (MonthInput.output p v))]
    ++ (if MonthInput.closable p then [MonthInput.ClosePopup] else [])
  /\ MonthInput.popupIsClosed (MonthInput.handleSelect p e v c)
     = MonthInput.closable p || MonthInput.popupIsClosed c
  /\ (isValid (MonthInput.selected_date p v) = false -> MonthInput.output p v = "")
  /\ (isValid (MonthInput.selected_date p v) = true ->
      MonthInput.output p v
      = moment_format (MonthInput.selected_date p v) (MonthInput.dateFormat p))
  /\ (MonthInput.localization p = None \/ MonthInput.localization p = Some "" ->
      MonthInput.selected_date p v
      = moment_of_parts (mkParts None (v_month v) None None None)).
Proof.
  split; [|split; [|split; [|split]]].
  - unfold MonthInput.handleSelect, MonthInput.seq, MonthInput.when.
    destruct (MonthInput.closable p); simpl; [by rewrite <- app_assoc|done].
  - unfold MonthInput.handleSelect, MonthInput.seq, MonthInput.when.
    by destruct (MonthInput.closable p).
  - unfold MonthInput.output. by intros ->.
  - unfold MonthInput.output. by intros ->.
  - unfold MonthInput.selected_date. by intros [-> | ->].
Qed.

End MonthSelection.

Lemma month_handleSelect_reads_month_only_witness :
  MonthInput.handleSelect
    (MonthInput.mkProps (H := SampleHost.host) "" "MMM" true None ∅)
    SampleHost.click SampleHost.picked (MonthInput.mkComponent false [])
  = MonthInput.handleSelect
      (MonthInput.mkProps (H := SampleHost.host) "" "MMM" true None ∅)
      SampleHost.click (mkParts None (Some 2%Z) None None None)
      (MonthInput.mkComponent false []).
Proof.
  apply (month_handleSelect_reads_month_only
           (MonthInput.mkProps (H := SampleHost.host) "" "MMM" true None ∅)
           SampleHost.click SampleHost.picked (mkParts None (Some 2%Z) None None None)
           (MonthInput.mkComponent false [])).
  reflexivity.
Defined.

(** ** Navigation, focus and the value sent back *)

Section Navigation.
Context `{Externals}.
Implicit Types (p : DateTimeInputProps) (c : Component) (e : Event) (v : DateParts).

(** X16: header clicks only navigate: after any number of them, each given
    its tick, the mode has gone that many steps back round the cycle while
    the stored fields, the popup flag and the [onChange] calls are what they
    were and nothing is pending; after five clicks the whole state is back. *)
Theorem header_clicks_only_navigate p (n : nat) c :
  pending c = [] ->
  mode (state (Nat.iter n (headerClick p) c)) = Nat.iter n getPrevMode (mode (state c))
  /\ stored (state (Nat.iter n (headerClick p) c)) = stored (state c)
  /\ popupIsClosed (state (Nat.iter n (headerClick p) c)) = popupIsClosed (state c)
  /\ onChange_calls (log (Nat.iter n (headerClick p) c)) = onChange_calls (log c)
  /\ pending (Nat.iter n (headerClick p) c) = []
  /\ (n = 5%nat -> state (Nat.iter n (headerClick p) c) = state c).
Proof.
  intros Hq.
  assert (mode (state (Nat.iter n (headerClick p) c))
          = Nat.iter n getPrevMode (mode (state c))
          /\ stored (state (Nat.iter n (headerClick p) c)) = stored (state c)
          /\ popupIsClosed (state (Nat.iter n (headerClick p) c)) = popupIsClosed (state c)
          /\ onChange_calls (log (Nat.iter n (headerClick p) c)) = onChange_calls (log c)
          /\ pending (Nat.iter n (headerClick p) c) = []) as Hall.
  { induction n as [|n (IHm & IHs & IHp & IHl & IHq)]; [done|].
    simpl. rewrite headerClick_idle by done. simpl.
    rewrite IHm, onChange_calls_app, IHl. simpl.
    rewrite app_nil_r. repeat split; try done. }
  destruct Hall as (Hm & Hs & Hp & Hl & Hq').
  repeat split; try done.
  intros ->.
  destruct (state (Nat.iter 5 (headerClick p) c)) as [m' y' mo' d' h' mi' pc'],
    (state c) as [m y mo d h mi pc].
  simpl in *. injection Hs as -> -> -> -> ->. subst. by destruct m.
Qed.


(** X18: the effective format does not depend on [value]: any props object
    that agrees with the props on every other field, as every data object
    handed to [onChange] does, has the same effective format, so a text
    sent to the caller and passed back as [value] is parsed by
    [componentDidUpdate] under the format that produced it. *)
Theorem same_config_same_format p (d : DateTimeInputProps) :
  same_config p d ->
  getDateTimeFormat d = getDateTimeFormat p
  /\ forall (prevProps : DateTimeInputProps) c,
       value prevProps <> value d ->
       state (componentDidUpdate d prevProps c)
       = match parseValue (value d) (getDateTimeFormat p) (localization p) with
         | Some parsed =>
             set_fields (Some (m_year parsed)) (Some (m_month parsed))
               (Some (m_date parsed)) (Some (m_hour parsed)) (Some (m_minute parsed))
               (state c)
         | None => state c
         end.
Proof.
  intros (Hdf & Htf & Hdiv & Hdtf & _ & _ & _ & Hloc & _).
  assert (getDateTimeFormat d = getDateTimeFormat p) as Hfmt.
  { unfold getDateTimeFormat. by rewrite Hdf, Htf, Hdiv, Hdtf. }
  split; [done|]. intros prevProps c Hne.
  unfold componentDidUpdate, when. rewrite Hfmt, Hloc.
  destruct (String.eqb_spec (value prevProps) (value d)); [done|].
  simpl. by destruct (parseValue _ _ _).
Qed.

(** X19: after a selection with at least one field set has been handled,
    the internal value the pickers are initialised from is the moment of
    exactly that selection, and the text a minute-mode commit sends to the
    caller is that same moment in the effective format. *)
Theorem selection_becomes_internal_value p e v c :
  blank v = false ->
  parseInternalValue (state (handleSelectUndelayed p e v c)) = Some (moment_of_parts v)
  /\ (mode (state c) = Minute ->
      forall m, parseInternalValue (state (handleSelectUndelayed p e v c)) = Some m ->
        onChange_calls (log (handleSelectUndelayed p e v c))
        = onChange_calls (log c)
          ++ [(e, with_value p (moment_format m (getDateTimeFormat p)))]).
Proof.
  intros Hv.
  assert (parseInternalValue (state (handleSelectUndelayed p e v c))
          = Some (moment_of_parts v)) as Hint.
  { destruct (decide (mode (state c) = Minute)) as [Hm|Hm].
    - rewrite handleSelectUndelayed_minute by done.
      destruct v as [[] [] [] [] []]; done.
    - rewrite handleSelectUndelayed_other by done.
      destruct v as [[] [] [] [] []]; done. }
  split; [done|]. intros Hm m Hsome.
  rewrite Hint in Hsome. injection Hsome as <-.
  rewrite handleSelectUndelayed_minute by done. simpl.
  apply onChange_calls_minute_commit.
Qed.

End Navigation.

Lemma header_clicks_only_navigate_witness :
  mode (state (Nat.iter 2 (headerClick SampleHost.defaultProps) (SampleHost.idle Month)))
  = Minute
  /\ state (Nat.iter 5 (headerClick SampleHost.defaultProps) (SampleHost.idle Month))
     = state (SampleHost.idle Month).
Proof.
  split.
  - apply (proj1 (header_clicks_only_navigate SampleHost.defaultProps 2%nat
                    (SampleHost.idle Month) eq_refl)).
  - apply (proj2 (proj2 (proj2 (proj2 (proj2
      (header_clicks_only_navigate SampleHost.defaultProps 5%nat
         (SampleHost.idle Month) eq_refl)))))).
    reflexivity.
Defined.


Lemma same_config_same_format_witness :
  getDateTimeFormat (with_value SampleHost.defaultProps "05-03-2024 14:30")
  = "DD-MM-YYYY HH:mm".
Proof.
  apply (proj1 (same_config_same_format SampleHost.defaultProps
                  (with_value SampleHost.defaultProps "05-03-2024 14:30")
                  ltac:(by repeat split))).
Defined.

Lemma selection_becomes_internal_value_witness :
  parseInternalValue (state
    (handleSelectUndelayed SampleHost.defaultProps SampleHost.click SampleHost.picked
       (SampleHost.idle Day)))
  = Some (@moment_of_parts SampleHost.host SampleHost.picked).
Proof.
  apply (proj1 (selection_becomes_internal_value SampleHost.defaultProps SampleHost.click
                  SampleHost.picked (SampleHost.idle Day) eq_refl)).
Defined.
